(** * pybix.graph: the GraphImage session (login, chart retrieval)

    A shallow embedding of [pybix/graph.py].  Python strings are
    [string]s, [Optional[str]] arguments are [option string],
    [os.environ] is a finite map from names to values, and the effects of
    the class (HTTP calls through a [requests.Session], the file system,
    the binary standard output, exceptions) are threaded through a small
    state-and-exception monad over an explicit [World]. *)

From Stdlib Require Import Strings.Byte.
From stdpp Require Import base option strings list gmap.

Local Open Scope string_scope.
Local Open Scope list_scope.

(** ** Python built-ins used by the module *)

Module Py.

(** Truthiness of an [Optional[str]]: [None] and [""] are falsy. *)
Definition truthy (v : option string) : bool :=
  match v with
  | Some (String _ _) => true
  | Some EmptyString => false
  | None => false
  end.

(** [a or b] between two optional strings. *)
Definition or_ (a b : option string) : option string :=
  if truthy a then a else b.

(** [a or 'literal']: the right operand is a [str], so is the result
    whenever the literal is one. *)
Definition or_str (a : option string) (d : string) : string :=
  match a with
  | Some (String c s) => String c s
  | Some EmptyString => d
  | None => d
  end.

(** The slice [s[n:]]. *)
Fixpoint drop (n : nat) (s : string) : string :=
  match n, s with
  | O, _ => s
  | S _, EmptyString => EmptyString
  | S n', String _ s' => drop n' s'
  end.

(** [s.startswith(p)] *)
Definition startswith (s p : string) : bool := String.prefix p s.

(** [s.endswith(suf)] *)
Definition endswith (s suf : string) : bool :=
  (String.length suf <=? String.length s)%nat
  && String.eqb (drop (String.length s - String.length suf) s) suf.

(** The scan of [str.replace] for a non-empty [old]: at each position
    outside an occurrence being skipped, an occurrence of [old] that
    starts there is replaced by [new] and its characters are skipped;
    any other character is copied. *)
Fixpoint replace_scan (old new : string) (skip : nat) (s : string) : string :=
  match s with
  | EmptyString => EmptyString
  | String c s' =>
      match skip with
      | S k => replace_scan old new k s'
      | O =>
          if startswith s old
          then new +:+ replace_scan old new (String.length old - 1) s'
          else String c (replace_scan old new 0 s')
      end
  end.

(** With an empty [old], [str.replace] puts [new] before every
    character and at the end. *)
Fixpoint replace_empty (new : string) (s : string) : string :=
  match s with
  | EmptyString => new
  | String c s' => new +:+ String c (replace_empty new s')
  end.

(** [s.replace(old, new)] *)
Definition replace (s old new : string) : string :=
  match old with
  | EmptyString => replace_empty new s
  | String _ _ => replace_scan old new 0 s
  end.

End Py.

(** ** Configuration resolution and base URL normalisation
    ([GraphImage.__init__], lines 30-43) *)

Definition api_suffix : string := "/api_jsonrpc.php".

(** [url = base_url or os.environ.get('ZABBIX_SERVER') or 'http://localhost/zabbix'] *)
Definition init_url (base_url : option string) (environ : gmap string string) : string :=
  Py.or_str (Py.or_ base_url (environ !! "ZABBIX_SERVER")) "http://localhost/zabbix".

(** [url.replace("/api_jsonrpc.php", "") if not url.endswith('/api_jsonrpc.php') else url] *)
Definition init_BASE_URL (url : string) : string :=
  if negb (Py.endswith url api_suffix)
  then Py.replace url api_suffix ""
  else url.

(** The login form, a dict in insertion order. *)
Definition init_payload (username password : option string)
    (environ : gmap string string) : list (string * string) :=
  [ ("name", Py.or_str (Py.or_ username (environ !! "ZABBIX_USER")) "Admin");
    ("password", Py.or_str (Py.or_ password (environ !! "ZABBIX_PASSWORD")) "zabbix");
    ("enter", "Sign in") ].

(** ** The world the class acts on *)

Abbreviation bytes := (list byte).
Abbreviation cookies := (list (string * string)).

Inductive exn : Type :=
  | NotImplementedError (msg : string)
  | RequestException (detail : string)
  | OSError (path : string).

Inductive method : Type := GET | POST.

(** One call on a [requests.Session]: which client made it, what was asked
    and the cookies the client sent along. *)
Record request : Type := Request {
  rq_client : nat;
  rq_method : method;
  rq_url : string;
  rq_data : list (string * string);
  rq_stream : bool;
  rq_cookies : cookies
}.

(** What the server answers.  [rs_iter_content n] is what
    [iter_content(chunk_size=n)] yields: the chunks in the order received
    and, when the transfer breaks, the exception raised after the last
    of them. *)
Record response : Type := Response {
  rs_status : nat;
  rs_set_cookies : cookies;
  rs_iter_content : N -> list bytes * option exn
}.

Inductive handle : Type :=
  | HFile (path : string)
  | HResponse (url : string).

Inductive sink : Type :=
  | Stdout
  | ToFile (path : string).

Inductive event : Type :=
  | EvRequest (r : request)
  | EvOpen (path : string)
  | EvWrite (to : sink) (data : bytes)
  | EvClose (h : handle).

Record World : Type := mkWorld {
  environ : gmap string string;        (* os.environ *)
  cwd : string;                        (* os.getcwd() *)
  net : request -> exn + response;     (* the transport and the server *)
  can_open : string -> bool;           (* may this path be opened for writing *)
  jars : list cookies;                 (* cookie jar of each Session created *)
  fs : gmap string bytes;              (* file contents *)
  open_handles : list handle;          (* files and streamed responses not yet closed *)
  stdout : bytes;                      (* sys.stdout.buffer *)
  trace : list event                   (* what was done, oldest first *)
}.

#[global] Instance handle_eq_dec : EqDecision handle.
Proof. solve_decision. Defined.

(** ** Computations: state and exceptions *)

Inductive outcome (A : Type) : Type :=
  | Return (a : A)
  | Raise (e : exn).
Arguments Return {A} a.
Arguments Raise {A} e.

Definition M (A : Type) : Type := World -> outcome A * World.

Definition ret {A} (a : A) : M A := fun w => (Return a, w).

Definition raise {A} (e : exn) : M A := fun w => (Raise e, w).

Definition bind {A B} (m : M A) (k : A -> M B) : M B :=
  fun w =>
    match m w with
    | (Return a, w') => k a w'
    | (Raise e, w') => (Raise e, w')
    end.

Notation "x <- m ;; k" := (bind m (fun x => k))
  (at level 100, m at next level, right associativity).
Notation "m ;;; k" := (bind m (fun _ => k))
  (at level 100, right associativity).

(** [try: body finally: cleanup], the shape of a [with] block's exit. *)
Definition finally {A} (body : M A) (cleanup : M unit) : M A :=
  fun w =>
    match body w with
    | (r, w') =>
        match cleanup w' with
        | (Return _, w'') => (r, w'')
        | (Raise e, w'') => (Raise e, w'')
        end
    end.

Definition set_trace (t : list event) (w : World) : World :=
  mkWorld (environ w) (cwd w) (net w) (can_open w) (jars w) (fs w)
          (open_handles w) (stdout w) t.
Definition set_jars (j : list cookies) (w : World) : World :=
  mkWorld (environ w) (cwd w) (net w) (can_open w) j (fs w)
          (open_handles w) (stdout w) (trace w).
Definition set_fs (f : gmap string bytes) (w : World) : World :=
  mkWorld (environ w) (cwd w) (net w) (can_open w) (jars w) f
          (open_handles w) (stdout w) (trace w).
Definition set_open_handles (h : list handle) (w : World) : World :=
  mkWorld (environ w) (cwd w) (net w) (can_open w) (jars w) (fs w)
          h (stdout w) (trace w).
Definition set_stdout (o : bytes) (w : World) : World :=
  mkWorld (environ w) (cwd w) (net w) (can_open w) (jars w) (fs w)
          (open_handles w) o (trace w).

Definition os_environ : M (gmap string string) := fun w => (Return (environ w), w).
Definition os_getcwd : M string := fun w => (Return (cwd w), w).

(** Removes the first occurrence of [h]. *)
Fixpoint remove_first (h : handle) (l : list handle) : list handle :=
  match l with
  | [] => []
  | x :: l' => if decide (x = h) then l' else x :: remove_first h l'
  end.

Definition close (h : handle) : M unit :=
  fun w => (Return tt,
            set_trace (trace w ++ [EvClose h])
              (set_open_handles (remove_first h (open_handles w)) w)).

(** *** requests.Session *)

(** [requests.Session()]: a new client with an empty cookie jar. *)
Definition Session_new : M nat :=
  fun w => (Return (length (jars w)), set_jars (jars w ++ [[]]) w).

(** A call on the client [c]: the request carries the jar's cookies; a
    transport failure raises; any HTTP response, whatever its status, is
    returned after its cookies went into the jar.  A streamed response
    stays open until it is closed. *)
Definition Session_request (c : nat) (m : method) (url : string)
    (data : list (string * string)) (stream : bool) : M response :=
  fun w =>
    let rq := Request c m url data stream (default [] (jars w !! c)) in
    let w1 := set_trace (trace w ++ [EvRequest rq]) w in
    match net w rq with
    | inl e => (Raise e, w1)
    | inr rs =>
        let w2 := set_jars (alter (fun j => rs_set_cookies rs ++ j) c (jars w1)) w1 in
        (Return rs,
         if stream then set_open_handles (HResponse url :: open_handles w2) w2 else w2)
    end.

Definition Session_post (c : nat) (url : string) (data : list (string * string))
  : M response := Session_request c POST url data false.

Definition Session_get (c : nat) (url : string) (stream : bool) : M response :=
  Session_request c GET url [] stream.

(** *** Files and standard output *)

(** [open(path, 'wb')]: creates or truncates. *)
Definition open_wb (path : string) : M unit :=
  fun w =>
    if can_open w path
    then (Return tt,
          set_trace (trace w ++ [EvOpen path])
            (set_open_handles (HFile path :: open_handles w)
               (set_fs (<[path := []]> (fs w)) w)))
    else (Raise (OSError path), w).

(** [f.write(data)] on the file opened at [path]. *)
Definition file_write (path : string) (data : bytes) : M unit :=
  fun w => (Return tt,
            set_trace (trace w ++ [EvWrite (ToFile path) data])
              (set_fs (<[path := default [] (fs w !! path) ++ data]> (fs w)) w)).

(** [sys.stdout.buffer.write(data)] *)
Definition stdout_write (data : bytes) : M unit :=
  fun w => (Return tt,
            set_trace (trace w ++ [EvWrite Stdout data])
              (set_stdout (stdout w ++ data) w)).

(** [with open(path, 'wb') as f: body] *)
Definition with_open_wb {A} (path : string) (body : M A) : M A :=
  open_wb path ;;; finally body (close (HFile path)).

(** [for chunk in image.iter_content(...): body]: the generator hands
    out one chunk at a time and raises, if it does, when asked for the
    chunk after the last one received. *)
Fixpoint for_chunks (chunks : list bytes) (failure : option exn)
    (body : bytes -> M unit) : M unit :=
  match chunks with
  | [] => match failure with
          | None => ret tt
          | Some e => raise e
          end
  | chunk :: rest => body chunk ;;; for_chunks rest failure body
  end.

Definition for_iter_content (image : response) (chunk_size : N)
    (body : bytes -> M unit) : M unit :=
  for_chunks (rs_iter_content image chunk_size).1
             (rs_iter_content image chunk_size).2 body.

(** [if chunk:] on a bytes object. *)
Definition nonempty (chunk : bytes) : bool :=
  match chunk with
  | [] => false
  | _ :: _ => true
  end.

(** ** class GraphImage *)

Record GraphImage : Type := mkGraphImage {
  BASE_URL : string;
  SESSION : nat
}.

(** [GraphImage.__init__] *)
Definition __init__ (base_url username password : option string) : M GraphImage :=
  env <- os_environ ;;
  let url := init_url base_url env in
  let base := init_BASE_URL url in
  let payload := init_payload username password env in
  session <- Session_new ;;
  _ <- Session_post session (base +:+ "/index.php") payload ;;
  ret (mkGraphImage base session).

(** [GraphImage._validate_times] *)
Definition _validate_times (self : GraphImage) (from_date to_date : string) : M unit :=
  ret tt.

Definition chart_url (self : GraphImage)
    (graph_id from_date to_date width height : string) : string :=
  BASE_URL self +:+ "/chart2.php?graphid=" +:+ graph_id
    +:+ "&from=" +:+ from_date +:+ "&to=" +:+ to_date
    +:+ "&profileIdx=web.graphs.filter&width=" +:+ width
    +:+ "&height=" +:+ height.

Definition graph_file (output_path graph_id : string) : string :=
  output_path +:+ "/graph-" +:+ graph_id +:+ ".png".

(** [GraphImage.get_by_graph_id], with the method that
    [self._validate_times] resolves to as a parameter (the attribute is
    looked up on [self] at call time). *)
Definition get_by_graph_id_with
    (validate_times : GraphImage -> string -> string -> M unit)
    (self : GraphImage) (graph_id from_date to_date width height : string)
    (save : bool) (output_path : option string) : M unit :=
  validate_times self from_date to_date ;;;
  image <- Session_get (SESSION self)
             (chart_url self graph_id from_date to_date width height) true ;;
  finally
    (if save then
       here <- os_getcwd ;;
       let output_path := Py.or_str output_path here in
       with_open_wb (graph_file output_path graph_id)
         (for_iter_content image 8192%N (fun chunk =>
            if nonempty chunk
            then file_write (graph_file output_path graph_id) chunk
            else ret tt))
     else
       for_iter_content image 8192%N (fun chunk =>
         if nonempty chunk then stdout_write chunk else ret tt))
    (close (HResponse (chart_url self graph_id from_date to_date width height))).

Definition get_by_graph_id := get_by_graph_id_with _validate_times.

(** The keyword defaults of [get_by_graph_id]. *)
Definition default_from_date : string := "now-1d".
Definition default_to_date : string := "now".
Definition default_width : string := "1782".
Definition default_height : string := "452".

(** A value passed for [type], annotated [str] with the default [1]. *)
Inductive pyval : Type :=
  | PyStr (s : string)
  | PyInt (z : Z)
  | PyNone.

(** [GraphImage.get_by_itemids] *)
Definition get_by_itemids (self : GraphImage) (item_ids : list string)
    (type : pyval) (from_date to_date width height : string)
    (save : bool) (output_path : option string) : M unit :=
  raise (NotImplementedError "Not yet added").

(** ** Notions used in the statements *)

(** [old] occurs somewhere in [s]. *)
Definition occurs (old s : string) : Prop :=
  exists p q, s = p +:+ old +:+ q.

(** No occurrence of [old] in [s] starts before position [n]. *)
Definition none_before (old : string) (n : nat) (s : string) : Prop :=
  forall i, i < n -> Py.startswith (Py.drop i s) old = false.

(** [s] ends with [suf]. *)
Definition ends_with (s suf : string) : Prop :=
  exists p, s = p +:+ suf.

(** [old in s], by trying every position. *)
Fixpoint occursb (old s : string) : bool :=
  Py.startswith s old ||
  match s with
  | EmptyString => false
  | String _ s' => occursb old s'
  end.

(** A layered setting: what wins among an explicit argument, an
    environment variable and a default, when an empty string counts as
    not given. *)
Inductive resolves (arg env : option string) (dflt : string) : string -> Prop :=
  | from_argument x :
      arg = Some x -> x <> "" -> resolves arg env dflt x
  | from_environment x :
      arg = None \/ arg = Some "" ->
      env = Some x -> x <> "" -> resolves arg env dflt x
  | from_default :
      arg = None \/ arg = Some "" ->
      env = None \/ env = Some "" -> resolves arg env dflt dflt.

(** Precedence by presence alone: any argument given wins, else any
    variable set wins, else the default. *)
Definition strict_precedence (arg env : option string) (dflt used : string) : Prop :=
  match arg, env with
  | Some a, _ => used = a
  | None, Some e => used = e
  | None, None => used = dflt
  end.

(** The HTTP calls recorded in a trace. *)
Definition requests_of (t : list event) : list request :=
  omap (fun ev => match ev with EvRequest r => Some r | _ => None end) t.

(** The call the constructor makes on its new client. *)
Definition login_request (base_url username password : option string)
    (w : World) : request :=
  Request (length (jars w)) POST
    (init_BASE_URL (init_url base_url (environ w)) +:+ "/index.php")
    (init_payload username password (environ w)) false [].

(** The call [get_by_graph_id] makes on the session's client. *)
Definition chart_request (self : GraphImage)
    (graph_id from_date to_date width height : string) (w : World) : request :=
  Request (SESSION self) GET
    (chart_url self graph_id from_date to_date width height) [] true
    (default [] (jars w !! SESSION self)).

(** A computation that makes no HTTP call. *)
Definition quiet {A} (m : M A) : Prop :=
  forall w, requests_of (trace (m w).2) = requests_of (trace w).

(** What a run leaves untouched when it only talks to the server. *)
Definition same_files_and_output (w w' : World) : Prop :=
  fs w' = fs w /\ stdout w' = stdout w /\ open_handles w' = open_handles w.

(** ** Sample worlds, for running the definitions *)

Definition png_chunks : list bytes :=
  [ [x89; x50; x4e; x47]; []; [x0d; x0a]; []; [x1a; x0a; x00] ].

(** A server that refuses the login with status 403 and a session cookie,
    and serves every other request as a stream of [png_chunks], broken
    off after them when [broken]. *)
Definition sample_net (broken : bool) (rq : request) : exn + response :=
  match rq_method rq with
  | POST => inr (Response 403 [("zbx_session", "abc")] (fun _ => ([], None)))
  | GET =>
      inr (Response 200 []
             (fun _ => (png_chunks,
                        if broken then Some (RequestException "connection reset")
                        else None)))
  end.

Definition sample_world (broken : bool) : World :=
  mkWorld {[ "ZABBIX_USER" := "monitor" ]} "/home/zbx" (sample_net broken)
          (fun _ => true) [] {[ "/tmp/out/graph-42.png" := [x00; x01] ]} [] [] [].

Definition sample_session : GraphImage :=
  mkGraphImage "https://zbx.example.com/zabbix" 0.

(** The world after a login on [sample_world]. *)
Definition logged_in_world (broken : bool) : World :=
  (__init__ (Some "https://zbx.example.com/zabbix") (Some "Admin")
            (Some "secret") (sample_world broken)).2.

(** A stricter validator, as a subclass could define it: it refuses an
    empty [from_date]. *)
Definition strict_validate_times (self : GraphImage)
    (from_date to_date : string) : M unit :=
  if String.eqb from_date "" then raise (RequestException "empty from_date")
  else stdout_write [].

(** A world whose transport is down. *)
Definition offline_world : World :=
  mkWorld ∅ "/home/zbx" (fun _ => inl (RequestException "connection refused"))
          (fun _ => true) [[("zbx_session", "abc")]]
          {[ "/home/zbx/graph-42.png" := [x00; x01] ]} [] [x2a] [].

(** A world in which no file can be opened for writing. *)
Definition readonly_world : World :=
  mkWorld ∅ "/home/zbx" (sample_net false) (fun _ => false)
          [[("zbx_session", "abc")]]
          {[ "/home/zbx/graph-42.png" := [x00; x01] ]} [] [x2a] [].

(** A server that answers the first chart request of a client with one
    image and a cookie, and a request carrying a cookie with another. *)
Definition changing_net (rq : request) : exn + response :=
  match rq_cookies rq with
  | [] => inr (Response 200 [("seen", "1")]
                 (fun _ => ([[x01; x02; x03]; [x04]], None)))
  | _ :: _ => inr (Response 200 [] (fun _ => ([[x0a]; []; [x0b]], None)))
  end.

Definition changing_world : World :=
  mkWorld ∅ "/home/zbx" changing_net (fun _ => true) [[]] ∅ [] [] [].

(** A server that only sends keep-alive chunks. *)
Definition idle_world : World :=
  mkWorld ∅ "/home/zbx"
          (fun _ => inr (Response 200 [] (fun _ => ([[]; []; []], None))))
          (fun _ => true) [[]]
          {[ "/home/zbx/graph-42.png" := [x00; x01] ]} [] [] [].

(** What is used when the argument does not count: the environment
    variable when it is set to a non-empty string, else the default. *)
Definition falls_through (env : option string) (dflt used : string) : Prop :=
  match env with
  | Some (String c e) => used = String c e
  | Some EmptyString => used = dflt
  | None => used = dflt
  end.

(** ** Strings *)

Section string_facts.

Implicit Types s p q old new : string.

Lemma app_nil_l_str s : "" +:+ s = s.
Proof. reflexivity. Qed.

Lemma app_cons_str c s p : String c s +:+ p = String c (s +:+ p).
Proof. reflexivity. Qed.

Lemma app_empty_r s : s +:+ "" = s.
Proof.
  induction s as [|c s IH]; [done|]. by rewrite app_cons_str, IH.
Qed.

Lemma app_assoc_str s p q : (s +:+ p) +:+ q = s +:+ (p +:+ q).
Proof.
  induction s as [|c s IH]; [done|]. by rewrite !app_cons_str, IH.
Qed.

Lemma app_length_str s p :
  String.length (s +:+ p) = String.length s + String.length p.
Proof.
  induction s as [|c s IH]; [done|]. rewrite app_cons_str. simpl. by rewrite IH.
Qed.

Lemma drop_app_length p s : Py.drop (String.length p) (p +:+ s) = s.
Proof.
  induction p as [|c p IH]; [done|]. rewrite app_cons_str. simpl. apply IH.
Qed.

Lemma drop_split n s :
  n <= String.length s ->
  exists p, s = p +:+ Py.drop n s /\ String.length p = n.
Proof.
  revert s; induction n as [|n IH]; intros s Hn.
  - exists ""; done.
  - destruct s as [|c s]; simpl in *; [lia|].
    destruct (IH s) as (p & Hp & Hl); [lia|].
    exists (String c p). rewrite app_cons_str, <- Hp. simpl. by rewrite Hl.
Qed.

Lemma startswith_app s old :
  Py.startswith s old = true <-> exists q, s = old +:+ q.
Proof.
  unfold Py.startswith. revert s.
  induction old as [|a old IH]; intros s.
  - split; [intros _; exists s; done | intros _; by destruct s].
  - destruct s as [|c s]; simpl.
    + split; [done | intros (q & Hq); done].
    + destruct (Ascii.ascii_dec a c) as [->|Hne].
      * rewrite IH. split; intros (q & Hq); exists q.
        -- by rewrite app_cons_str, Hq.
        -- rewrite app_cons_str in Hq. by injection Hq.
      * split; [done|]. intros (q & Hq). rewrite app_cons_str in Hq.
        injection Hq; intros; congruence.
Qed.

Lemma endswith_spec s suf :
  Py.endswith s suf = true <-> ends_with s suf.
Proof.
  unfold Py.endswith, ends_with. rewrite andb_true_iff, Nat.leb_le, String.eqb_eq.
  split.
  - intros (Hl & Hd).
    destruct (drop_split (String.length s - String.length suf) s) as (p & Hp & _);
      [lia|]. exists p. by rewrite Hd in Hp.
  - intros (p & ->). rewrite app_length_str. split; [lia|].
    replace (String.length p + String.length suf - String.length suf)
      with (String.length p) by lia.
    apply drop_app_length.
Qed.

Lemma replace_scan_skip old new k s :
  Py.replace_scan old new k s = Py.replace_scan old new 0 (Py.drop k s).
Proof.
  revert k; induction s as [|c s IH]; intros [|k]; simpl; done.
Qed.

Lemma occurs_tail old c s : occurs old s -> occurs old (String c s).
Proof. intros (p & q & ->). by exists (String c p), q. Qed.

Lemma occurs_head old s : Py.startswith s old = true -> occurs old s.
Proof. rewrite startswith_app. intros (q & ->). by exists "", q. Qed.

(** Without an occurrence of [old], [replace] returns its subject. *)
Lemma replace_absent s old new :
  old <> "" -> ~ occurs old s -> Py.replace s old new = s.
Proof.
  intros Hold Hno. destruct old as [|a old]; [done|]. simpl. clear Hold.
  induction s as [|c s IH]; [done|].
  cbn [Py.replace_scan].
  destruct (Py.startswith (String c s) (String a old)) eqn:Hsw.
  - destruct Hno. by apply occurs_head.
  - f_equal. apply IH. intros Hocc. apply Hno. by apply occurs_tail.
Qed.

(** At the leftmost occurrence, [replace] copies what precedes it, puts
    [new] and goes on after the occurrence. *)
Lemma replace_leftmost p q old new :
  old <> "" ->
  none_before old (String.length p) (p +:+ old +:+ q) ->
  Py.replace (p +:+ old +:+ q) old new = p +:+ new +:+ Py.replace q old new.
Proof.
  intros Hold. destruct old as [|a old]; [done|]. clear Hold.
  unfold Py.replace.
  induction p as [|c p IH]; intros Hnb.
  - rewrite !app_nil_l_str, app_cons_str.
    cbn [Py.replace_scan].
    replace (Py.startswith (String a (old +:+ q)) (String a old)) with true
      by (symmetry; apply startswith_app; by exists q).
    replace (String.length (String a old) - 1) with (String.length old)
      by (simpl; lia).
    by rewrite replace_scan_skip, drop_app_length.
  - rewrite 2!(app_cons_str c p).
    cbn [Py.replace_scan].
    pose proof (Hnb 0 ltac:(simpl; lia)) as H0.
    rewrite app_cons_str in H0. simpl Py.drop in H0. rewrite H0.
    f_equal. apply IH.
    intros i Hi. apply (Hnb (S i)). simpl; lia.
Qed.

Lemma occursb_spec old s : occursb old s = true <-> occurs old s.
Proof.
  induction s as [|c s IH]; cbn [occursb]; rewrite orb_true_iff.
  - split.
    + intros [H|H]; [by apply occurs_head | done].
    + intros (p & q & Hpq). left. apply startswith_app.
      destruct p as [|c p]; [by exists q | done].
  - split.
    + intros [H|H]; [by apply occurs_head | apply occurs_tail; by apply IH].
    + intros (p & q & Hpq). destruct p as [|c' p].
      * left. apply startswith_app. by exists q.
      * right. apply IH. rewrite app_cons_str in Hpq. injection Hpq as _ ->.
        by exists p, q.
Qed.

Lemma not_occurs_by_search old s : occursb old s = false -> ~ occurs old s.
Proof. intros Hb Ho. apply occursb_spec in Ho. congruence. Qed.

Lemma not_ends_with_by_test s suf : Py.endswith s suf = false -> ~ ends_with s suf.
Proof. intros Hb He. apply endswith_spec in He. congruence. Qed.

Lemma drop_length_le n s : String.length (Py.drop n s) <= String.length s.
Proof.
  revert s; induction n as [|n IH]; intros [|c s]; simpl; try lia.
  specialize (IH s). lia.
Qed.

(** With nothing put in their place, replaced occurrences only shorten. *)
Lemma replace_scan_length_le old s :
  String.length (Py.replace_scan old "" 0 s) <= String.length s.
Proof.
  assert (forall n s', String.length s' <= n ->
            String.length (Py.replace_scan old "" 0 s') <= String.length s')
    as Hall; [|by apply (Hall (String.length s))].
  clear s. induction n as [|n IH]; intros [|c s] Hle; cbn [Py.replace_scan];
    cbn [String.length] in *; try lia.
  destruct (Py.startswith (String c s) old).
  - rewrite app_nil_l_str, replace_scan_skip.
    pose proof (drop_length_le (String.length old - 1) s) as Hd.
    pose proof (IH (Py.drop (String.length old - 1) s) ltac:(lia)). lia.
  - pose proof (IH s ltac:(lia)). cbn [String.length]. lia.
Qed.

Lemma replace_scan_shrinks old s :
  old <> "" -> occurs old s ->
  String.length (Py.replace_scan old "" 0 s) < String.length s.
Proof.
  intros Hold. induction s as [|c s IH]; intros Hocc.
  - destruct Hocc as (p & q & Hpq). destruct p, old; done.
  - cbn [Py.replace_scan].
    destruct (Py.startswith (String c s) old) eqn:Hsw.
    + rewrite app_nil_l_str, replace_scan_skip.
      pose proof (replace_scan_length_le old (Py.drop (String.length old - 1) s)).
      pose proof (drop_length_le (String.length old - 1) s).
      cbn [String.length]. lia.
    + assert (occurs old s) as Hs.
      { destruct Hocc as (p & q & Hpq). destruct p as [|c' p].
        - rewrite app_nil_l_str in Hpq.
          assert (Py.startswith (String c s) old = true) as Ht
            by (apply startswith_app; by exists q).
          congruence.
        - rewrite app_cons_str in Hpq. injection Hpq as _ ->. by exists p, q. }
      specialize (IH Hs). cbn [String.length]. lia.
Qed.

End string_facts.

(** ** Resolution of the settings *)

Lemma or_str_or_resolves (arg env : option string) (dflt : string) :
  resolves arg env dflt (Py.or_str (Py.or_ arg env) dflt).
Proof.
  destruct arg as [[|c a]|]; cbn.
  - destruct env as [[|c e]|]; cbn.
    + apply from_default; auto.
    + apply from_environment; auto.
    + apply from_default; auto.
  - by apply from_argument.
  - destruct env as [[|c e]|]; cbn.
    + apply from_default; auto.
    + apply from_environment; auto.
    + apply from_default; auto.
Qed.

Lemma or_empty_is_or_none (env : option string) :
  Py.or_ (Some "") env = Py.or_ None env.
Proof. reflexivity. Qed.

(** ** The constructor's run *)

Lemma alter_last {A} (f : A -> A) (l : list A) (x : A) :
  alter f (length l) (l ++ [x]) = l ++ [f x].
Proof. induction l as [|y l IH]; [done|]. cbn. by rewrite IH. Qed.

Lemma init_run (base_url username password : option string) (w : World) :
  __init__ base_url username password w =
    let rq := login_request base_url username password w in
    let w1 := set_trace (trace w ++ [EvRequest rq]) (set_jars (jars w ++ [[]]) w) in
    match net w rq with
    | inl e => (Raise e, w1)
    | inr rs =>
        (Return (mkGraphImage (init_BASE_URL (init_url base_url (environ w)))
                              (length (jars w))),
         set_jars (jars w ++ [rs_set_cookies rs]) w1)
    end.
Proof.
  unfold __init__, bind, os_environ, Session_new, Session_post, Session_request,
    login_request, ret.
  cbn. rewrite list_lookup_middle by done. cbn.
  destruct (net w _) as [e|rs]; [done|].
  by rewrite alter_last, app_nil_r.
Qed.

(** ** Running the chunk loops *)

Lemma world_eta (w : World) :
  mkWorld (environ w) (cwd w) (net w) (can_open w) (jars w) (fs w)
          (open_handles w) (stdout w) (trace w) = w.
Proof. by destruct w. Qed.

Lemma filter_nonempty_concat (cs : list bytes) :
  concat (List.filter nonempty cs) = concat cs.
Proof.
  induction cs as [|[|b c] cs IH]; cbn; [done|done|]. by rewrite IH.
Qed.

Lemma filter_nonempty_Forall (cs : list bytes) :
  Forall (fun c => c <> []) (List.filter nonempty cs).
Proof.
  induction cs as [|[|b c] cs IH]; cbn; [constructor|done|].
  by constructor.
Qed.

Lemma for_chunks_file (path : string) (cs : list bytes) (failure : option exn) :
  forall (w : World) (content : bytes),
  fs w !! path = Some content ->
  for_chunks cs failure
    (fun chunk => if nonempty chunk then file_write path chunk else ret tt) w =
  (match failure with None => Return tt | Some e => Raise e end,
   set_trace (trace w ++ map (EvWrite (ToFile path)) (List.filter nonempty cs))
     (set_fs (<[path := content ++ concat cs]> (fs w)) w)).
Proof.
  induction cs as [|chunk cs IH]; intros w content Hc.
  - cbn [for_chunks List.filter map concat]. rewrite !app_nil_r.
    unfold set_trace, set_fs; cbn. rewrite (insert_id _ _ _ Hc), world_eta.
    by destruct failure.
  - cbn [for_chunks]. unfold bind at 1. destruct chunk as [|b chunk].
    + cbn [nonempty ret List.filter concat]. by rewrite (IH w content Hc).
    + cbn [nonempty List.filter map concat]. unfold file_write at 1.
      rewrite Hc. cbn [default].
      erewrite IH; [|unfold set_trace, set_fs; cbn; apply lookup_insert_eq].
      f_equal. unfold set_trace, set_fs; cbn.
      by rewrite insert_insert_eq, <- !app_assoc.
Qed.

Lemma for_chunks_stdout (cs : list bytes) (failure : option exn) :
  forall (w : World),
  for_chunks cs failure
    (fun chunk => if nonempty chunk then stdout_write chunk else ret tt) w =
  (match failure with None => Return tt | Some e => Raise e end,
   set_trace (trace w ++ map (EvWrite Stdout) (List.filter nonempty cs))
     (set_stdout (stdout w ++ concat cs) w)).
Proof.
  induction cs as [|chunk cs IH]; intros w.
  - cbn [for_chunks List.filter map concat]. rewrite !app_nil_r.
    unfold set_trace, set_stdout; cbn. rewrite world_eta.
    by destruct failure.
  - cbn [for_chunks]. unfold bind at 1. destruct chunk as [|b chunk].
    + cbn [nonempty ret List.filter concat]. by rewrite (IH w).
    + cbn [nonempty List.filter map concat]. unfold stdout_write at 1.
      rewrite IH. f_equal. unfold set_trace, set_stdout; cbn.
      by rewrite <- !app_assoc.
Qed.

(** ** Running [get_by_graph_id] *)

Lemma remove_first_head (h : handle) (l : list handle) :
  remove_first h (h :: l) = l.
Proof. cbn. by rewrite decide_True. Qed.

Lemma bind_ret {A B} (a : A) (k : A -> M B) (w : World) :
  bind (ret a) k w = k a w.
Proof. reflexivity. Qed.

Section chart_run.

Variable self : GraphImage.
Variables graph_id from_date to_date width height : string.

Let url := chart_url self graph_id from_date to_date width height.

(** The transport fails: the exception leaves the method at once. *)
Lemma chart_run_transport_failure (save : bool) (output_path : option string)
    (w : World) (e : exn) :
  let rq := chart_request self graph_id from_date to_date width height w in
  net w rq = inl e ->
  get_by_graph_id self graph_id from_date to_date width height save output_path w
  = (Raise e, set_trace (trace w ++ [EvRequest rq]) w).
Proof.
  intros rq Hnet.
  unfold get_by_graph_id, get_by_graph_id_with, _validate_times.
  rewrite bind_ret. unfold bind, Session_get, Session_request.
  fold url. unfold rq, chart_request in Hnet. fold url in Hnet.
  by rewrite Hnet.
Qed.

(** Writing to a file that can be opened. *)
Lemma chart_run_save (output_path : option string) (w : World)
    (image : response) (cs : list bytes) (failure : option exn) :
  let rq := chart_request self graph_id from_date to_date width height w in
  let path := graph_file (Py.or_str output_path (cwd w)) graph_id in
  net w rq = inr image ->
  rs_iter_content image 8192%N = (cs, failure) ->
  can_open w path = true ->
  get_by_graph_id self graph_id from_date to_date width height true output_path w
  = (match failure with None => Return tt | Some e => Raise e end,
     mkWorld (environ w) (cwd w) (net w) (can_open w)
       (alter (fun j => rs_set_cookies image ++ j) (SESSION self) (jars w))
       (<[path := concat cs]> (fs w))
       (open_handles w)
       (stdout w)
       (trace w ++ [EvRequest rq; EvOpen path]
          ++ map (EvWrite (ToFile path)) (List.filter nonempty cs)
          ++ [EvClose (HFile path); EvClose (HResponse url)])).
Proof.
  intros rq path Hnet Hbody Hopen.
  unfold get_by_graph_id, get_by_graph_id_with, _validate_times.
  rewrite bind_ret. unfold bind at 1. unfold Session_get, Session_request.
  fold url. unfold rq, chart_request in Hnet |- *. fold url in Hnet |- *.
  rewrite Hnet.
  destruct w as [env here nt co js files hs out tr]; cbn in *.
  unfold finally at 1. unfold bind at 1. unfold os_getcwd. cbn.
  fold path. unfold with_open_wb, for_iter_content. rewrite Hbody. cbn [fst snd].
  unfold bind at 1. unfold open_wb at 1. cbn. rewrite Hopen.
  unfold finally.
  erewrite for_chunks_file; [|cbn; apply lookup_insert_eq].
  cbv beta iota zeta delta [close set_trace set_open_handles set_fs set_stdout set_jars
    environ cwd net can_open jars fs open_handles stdout trace].
  rewrite !remove_first_head, insert_insert_eq, <- !app_assoc.
  cbn [app]. by destruct failure.
Qed.

(** Writing to standard output. *)
Lemma chart_run_stdout (output_path : option string) (w : World)
    (image : response) (cs : list bytes) (failure : option exn) :
  let rq := chart_request self graph_id from_date to_date width height w in
  net w rq = inr image ->
  rs_iter_content image 8192%N = (cs, failure) ->
  get_by_graph_id self graph_id from_date to_date width height false output_path w
  = (match failure with None => Return tt | Some e => Raise e end,
     mkWorld (environ w) (cwd w) (net w) (can_open w)
       (alter (fun j => rs_set_cookies image ++ j) (SESSION self) (jars w))
       (fs w)
       (open_handles w)
       (stdout w ++ concat cs)
       (trace w ++ [EvRequest rq]
          ++ map (EvWrite Stdout) (List.filter nonempty cs)
          ++ [EvClose (HResponse url)])).
Proof.
  intros rq Hnet Hbody.
  unfold get_by_graph_id, get_by_graph_id_with, _validate_times.
  rewrite bind_ret. unfold bind at 1. unfold Session_get, Session_request.
  fold url. unfold rq, chart_request in Hnet |- *. fold url in Hnet |- *.
  rewrite Hnet.
  destruct w as [env here nt co js files hs out tr]; cbn in *.
  unfold finally, for_iter_content. rewrite Hbody. cbn [fst snd].
  rewrite for_chunks_stdout.
  cbv beta iota zeta delta [close set_trace set_open_handles set_fs set_stdout set_jars
    environ cwd net can_open jars fs open_handles stdout trace].
  rewrite !remove_first_head, <- !app_assoc.
  cbn [app]. by destruct failure.
Qed.

End chart_run.

(** ** Which steps talk to the server *)

Section quiet_steps.

Context {A B : Type}.

Lemma requests_of_snoc_request (t : list event) (r : request) :
  requests_of (t ++ [EvRequest r]) = requests_of t ++ [r].
Proof. unfold requests_of. by rewrite omap_app. Qed.

Lemma requests_of_snoc_other (t : list event) (ev : event) :
  (forall r, ev <> EvRequest r) ->
  requests_of (t ++ [ev]) = requests_of t.
Proof.
  intros Hev. unfold requests_of. rewrite omap_app.
  destruct ev; cbn; rewrite ?app_nil_r; try done. by destruct (Hev r).
Qed.

Lemma quiet_ret (a : A) : quiet (ret a).
Proof. by intros w. Qed.

Lemma quiet_raise (e : exn) : quiet (@raise A e).
Proof. by intros w. Qed.

Lemma quiet_bind (m : M A) (k : A -> M B) :
  quiet m -> (forall a, quiet (k a)) -> quiet (bind m k).
Proof.
  intros Hm Hk w. unfold bind. specialize (Hm w).
  destruct (m w) as [[a|e] w1]; cbn in *; [|done].
  by rewrite (Hk a w1).
Qed.

Lemma quiet_finally (body : M A) (cleanup : M unit) :
  quiet body -> quiet cleanup -> quiet (finally body cleanup).
Proof.
  intros Hb Hc w. unfold finally. specialize (Hb w).
  destruct (body w) as [r w1]; cbn in *. specialize (Hc w1).
  destruct (cleanup w1) as [[[]|e] w2]; cbn in *; congruence.
Qed.

End quiet_steps.

Lemma quiet_os_getcwd : quiet os_getcwd.
Proof. by intros w. Qed.

Lemma quiet_close (h : handle) : quiet (close h).
Proof. intros w. cbn. by apply requests_of_snoc_other. Qed.

Lemma quiet_open_wb (path : string) : quiet (open_wb path).
Proof.
  intros w. unfold open_wb. destruct (can_open w path); cbn; [|done].
  by apply requests_of_snoc_other.
Qed.

Lemma quiet_file_write (path : string) (data : bytes) :
  quiet (file_write path data).
Proof. intros w. cbn. by apply requests_of_snoc_other. Qed.

Lemma quiet_stdout_write (data : bytes) : quiet (stdout_write data).
Proof. intros w. cbn. by apply requests_of_snoc_other. Qed.

Lemma quiet_for_chunks (cs : list bytes) (failure : option exn)
    (body : bytes -> M unit) :
  (forall c, quiet (body c)) -> quiet (for_chunks cs failure body).
Proof.
  intros Hbody. induction cs as [|c cs IH]; cbn [for_chunks].
  - destruct failure; [apply quiet_raise | apply quiet_ret].
  - apply quiet_bind; [apply Hbody | intros _; apply IH].
Qed.

Create HintDb quiet.

#[local] Hint Resolve quiet_ret quiet_raise quiet_os_getcwd quiet_close
  quiet_open_wb quiet_file_write quiet_stdout_write : quiet.

(** Once the response is in hand, nothing more is asked of the server. *)
Lemma quiet_sinks (self : GraphImage)
    (graph_id from_date to_date width height : string)
    (save : bool) (output_path : option string) (image : response) :
  quiet
    (finally
       (if save then
          here <- os_getcwd ;;
          with_open_wb (graph_file (Py.or_str output_path here) graph_id)
            (for_iter_content image 8192%N (fun chunk =>
               if nonempty chunk
               then file_write (graph_file (Py.or_str output_path here) graph_id) chunk
               else ret tt))
        else
          for_iter_content image 8192%N (fun chunk =>
            if nonempty chunk then stdout_write chunk else ret tt))
       (close (HResponse (chart_url self graph_id from_date to_date width height)))).
Proof.
  apply quiet_finally; [|auto with quiet].
  destruct save.
  - apply quiet_bind; [auto with quiet|]. intros here.
    unfold with_open_wb. apply quiet_bind; [auto with quiet|]. intros _.
    apply quiet_finally; [|auto with quiet].
    apply quiet_for_chunks. intros c. destruct (nonempty c); auto with quiet.
  - apply quiet_for_chunks. intros c. destruct (nonempty c); auto with quiet.
Qed.

Lemma chart_requests (self : GraphImage)
    (graph_id from_date to_date width height : string)
    (save : bool) (output_path : option string) (w : World) :
  requests_of
    (trace (get_by_graph_id self graph_id from_date to_date width height
              save output_path w).2)
  = requests_of (trace w)
      ++ [chart_request self graph_id from_date to_date width height w].
Proof.
  unfold get_by_graph_id, get_by_graph_id_with, _validate_times.
  rewrite bind_ret. unfold bind at 1. unfold Session_get, Session_request.
  fold (chart_url self graph_id from_date to_date width height).
  fold (chart_request self graph_id from_date to_date width height w).
  destruct (net w _) as [e|image].
  - cbn. apply requests_of_snoc_request.
  - rewrite quiet_sinks. cbn. apply requests_of_snoc_request.
Qed.

(** ** The constructor: settings, base URL, login *)

Lemma init_BASE_URL_verbatim (url : string) :
  ends_with url api_suffix -> init_BASE_URL url = url.
Proof.
  intros He. apply endswith_spec in He. unfold init_BASE_URL. by rewrite He.
Qed.

(** C1 (as amended).  For each of the base URL, the user name and the
    password, the constructor uses the explicit argument when it is a
    non-empty string, else the environment variable ([ZABBIX_SERVER],
    [ZABBIX_USER], [ZABBIX_PASSWORD]) when it is set to a non-empty string,
    else the default; the winners are what the login request carries (the
    base URL after normalisation). *)
Theorem init_resolution_precedence
    (base_url username password : option string) (w : World) :
  exists url name pw rq,
    resolves base_url (environ w !! "ZABBIX_SERVER") "http://localhost/zabbix" url /\
    resolves username (environ w !! "ZABBIX_USER") "Admin" name /\
    resolves password (environ w !! "ZABBIX_PASSWORD") "zabbix" pw /\
    trace (__init__ base_url username password w).2 = trace w ++ [EvRequest rq] /\
    rq_url rq = init_BASE_URL url +:+ "/index.php" /\
    rq_data rq = [("name", name); ("password", pw); ("enter", "Sign in")].
Proof.
  exists (init_url base_url (environ w)),
    (Py.or_str (Py.or_ username (environ w !! "ZABBIX_USER")) "Admin"),
    (Py.or_str (Py.or_ password (environ w !! "ZABBIX_PASSWORD")) "zabbix"),
    (login_request base_url username password w).
  repeat split; try apply or_str_or_resolves.
  rewrite init_run. cbn. by destruct (net w _).
Qed.

(** C1, the claim as stated fails: with [ZABBIX_USER=monitor] in the
    environment, the explicit argument [username=""] does not win; the
    login is sent for [monitor]. *)
Lemma empty_username_argument_loses :
  let env : gmap string string := {[ "ZABBIX_USER" := "monitor" ]} in
  init_payload (Some "") None env
    = [("name", "monitor"); ("password", "zabbix"); ("enter", "Sign in")]
  /\ ~ strict_precedence (Some "") (env !! "ZABBIX_USER") "Admin" "monitor".
Proof. split; [by vm_compute | cbn; discriminate]. Qed.

(** C2 (as amended).  A resolved URL that ends with [/api_jsonrpc.php] is
    stored verbatim.  One that does not end with it loses every occurrence
    of [/api_jsonrpc.php], wherever it stands: what precedes the leftmost
    occurrence is kept, the occurrence is dropped, and the rest is treated
    the same way.  A URL in which the suffix does not occur at all is
    stored unchanged. *)
Theorem base_url_normalisation (url : string) :
  (ends_with url api_suffix -> init_BASE_URL url = url) /\
  (~ occurs api_suffix url -> init_BASE_URL url = url) /\
  (forall p q,
     url = p +:+ api_suffix +:+ q ->
     ~ ends_with url api_suffix ->
     none_before api_suffix (String.length p) url ->
     init_BASE_URL url = p +:+ Py.replace q api_suffix "").
Proof.
  repeat split; [apply init_BASE_URL_verbatim | unfold init_BASE_URL ..].
  - intros Hno. destruct (Py.endswith url api_suffix); [done|]. cbn [negb].
    by apply replace_absent.
  - intros p q -> Hne Hnb.
    destruct (Py.endswith _ api_suffix) eqn:He.
    + destruct Hne. by apply endswith_spec.
    + cbn [negb]. by rewrite replace_leftmost.
Qed.

Lemma base_url_normalisation_witness :
  init_BASE_URL "https://zbx.example.com/zabbix/api_jsonrpc.php"
    = "https://zbx.example.com/zabbix/api_jsonrpc.php" /\
  init_BASE_URL "https://zbx.example.com/zabbix"
    = "https://zbx.example.com/zabbix" /\
  init_BASE_URL "http://h/api_jsonrpc.php/zabbix/api_jsonrpc.php/x"
    = "http://h" +:+ Py.replace "/zabbix/api_jsonrpc.php/x" api_suffix "".
Proof.
  split; [|split].
  - apply (proj1 (base_url_normalisation
                    "https://zbx.example.com/zabbix/api_jsonrpc.php")).
    by exists "https://zbx.example.com/zabbix".
  - apply (proj1 (proj2 (base_url_normalisation "https://zbx.example.com/zabbix"))).
    apply not_occurs_by_search. reflexivity.
  - apply (proj2 (proj2 (base_url_normalisation
                           "http://h/api_jsonrpc.php/zabbix/api_jsonrpc.php/x"))).
    + reflexivity.
    + apply not_ends_with_by_test. reflexivity.
    + intros i Hi. do 8 (destruct i as [|i]; [reflexivity|]). cbn in Hi. lia.
Defined.

(** C2, the claim as stated fails: this URL does not end with the suffix
    and is not stored unchanged; the occurrence inside it is removed. *)
Lemma inner_api_path_is_removed :
  let url := "http://h/api_jsonrpc.php/zabbix" in
  Py.endswith url api_suffix = false /\
  init_BASE_URL url = "http://h/zabbix" /\
  init_BASE_URL url <> url.
Proof.
  assert (init_BASE_URL "http://h/api_jsonrpc.php/zabbix" = "http://h/zabbix")
    as Hstored by reflexivity.
  cbn zeta. rewrite Hstored. repeat split. discriminate.
Qed.

(** C3, the code at the failing input.  A base URL given with the API
    path at its end keeps it: the stored base URL ends in
    [/api_jsonrpc.php] whenever the argument does. *)
Theorem api_suffix_survives (p : string) (environ : gmap string string) :
  init_BASE_URL (init_url (Some (p +:+ api_suffix)) environ) = p +:+ api_suffix
  /\ ends_with (init_BASE_URL (init_url (Some (p +:+ api_suffix)) environ))
       api_suffix.
Proof.
  assert (init_url (Some (p +:+ api_suffix)) environ = p +:+ api_suffix) as ->.
  { unfold init_url. destruct p; reflexivity. }
  assert (init_BASE_URL (p +:+ api_suffix) = p +:+ api_suffix) as ->.
  { apply init_BASE_URL_verbatim. by exists p. }
  split; [done | by exists p].
Qed.

Example api_url_stored_verbatim :
  init_BASE_URL (init_url (Some "https://zbx.example.com/zabbix/api_jsonrpc.php") ∅)
  = "https://zbx.example.com/zabbix/api_jsonrpc.php".
Proof. reflexivity. Qed.

(** Even a URL that does not end with the suffix can be stored with it at
    the end: removing the inner occurrence brings one about. *)
Example removal_can_create_the_suffix :
  Py.endswith "x/api_jsonrpc/api_jsonrpc.php.php" api_suffix = false /\
  init_BASE_URL "x/api_jsonrpc/api_jsonrpc.php.php" = "x/api_jsonrpc.php".
Proof. split; reflexivity. Qed.

(** C4.  Whatever the three arguments, when the transport delivers an
    HTTP response to the login, of any status, the constructor returns a
    session; it has made exactly one call, a POST to
    [{BASE_URL}/index.php] with the form [name], [password],
    [enter=Sign in] in this order, on its own new client, and has touched
    neither files nor standard output. *)
Theorem init_posts_login_once
    (base_url username password : option string) (w : World) (rs : response) :
  net w (login_request base_url username password w) = inr rs ->
  exists self w' name pw,
    __init__ base_url username password w = (Return self, w') /\
    BASE_URL self = init_BASE_URL (init_url base_url (environ w)) /\
    resolves username (environ w !! "ZABBIX_USER") "Admin" name /\
    resolves password (environ w !! "ZABBIX_PASSWORD") "zabbix" pw /\
    trace w' = trace w ++
      [EvRequest (Request (SESSION self) POST (BASE_URL self +:+ "/index.php")
                    [("name", name); ("password", pw); ("enter", "Sign in")]
                    false [])] /\
    jars w' !! SESSION self = Some (rs_set_cookies rs) /\
    same_files_and_output w w'.
Proof.
  intros Hnet. rewrite init_run. cbn zeta. rewrite Hnet.
  eexists _, _, _, _. split; [reflexivity|]. cbn.
  repeat split; try apply or_str_or_resolves.
  by apply list_lookup_middle.
Qed.

Lemma init_posts_login_once_witness :
  exists self w',
    __init__ (Some "https://zbx.example.com/zabbix") (Some "Admin") (Some "secret")
      (sample_world false) = (Return self, w') /\
    BASE_URL self = "https://zbx.example.com/zabbix".
Proof.
  destruct (init_posts_login_once
              (Some "https://zbx.example.com/zabbix") (Some "Admin") (Some "secret")
              (sample_world false)
              (Response 403 [("zbx_session", "abc")] (fun _ => ([], None)))
              eq_refl)
    as (self & w' & name & pw & Hrun & Hbase & _).
  exists self, w'. split; [exact Hrun | exact Hbase].
Defined.

(** ** Chart retrieval *)



(** C6.  With [save=False], when the chart request is answered, standard
    output receives exactly the bytes of the chunks in the order
    received, appended by one write per non-empty chunk and nothing else;
    no file is touched. *)
Theorem stdout_receives_graph (self : GraphImage)
    (graph_id from_date to_date width height : string)
    (output_path : option string) (w : World)
    (image : response) (cs : list bytes) (failure : option exn) :
  let rq := chart_request self graph_id from_date to_date width height w in
  let run := get_by_graph_id self graph_id from_date to_date width height
               false output_path w in
  net w rq = inr image ->
  rs_iter_content image 8192%N = (cs, failure) ->
  run.1 = match failure with None => Return tt | Some e => Raise e end /\
  stdout run.2 = stdout w ++ concat cs /\
  trace run.2 =
    trace w ++ [EvRequest rq]
      ++ map (EvWrite Stdout) (List.filter nonempty cs)
      ++ [EvClose (HResponse (chart_url self graph_id from_date to_date width height))] /\
  Forall (fun c => c <> []) (List.filter nonempty cs) /\
  concat (List.filter nonempty cs) = concat cs /\
  fs run.2 = fs w /\
  open_handles run.2 = open_handles w.
Proof.
  intros rq run Hnet Hbody. subst run.
  rewrite (chart_run_stdout _ _ _ _ _ _ _ _ _ _ _ Hnet Hbody). cbn.
  repeat split.
  - apply filter_nonempty_Forall.
  - apply filter_nonempty_concat.
Qed.

Lemma stdout_receives_graph_witness :
  let run := get_by_graph_id sample_session "42" default_from_date default_to_date
               default_width default_height false None (logged_in_world false) in
  run.1 = Return tt /\
  stdout run.2 = [x89; x50; x4e; x47; x0d; x0a; x1a; x0a; x00].
Proof.
  destruct (stdout_receives_graph sample_session "42" default_from_date
              default_to_date default_width default_height None
              (logged_in_world false)
              (Response 200 [] (fun _ => (png_chunks, None)))
              png_chunks None eq_refl eq_refl)
    as (Hr & Hout & _).
  cbn zeta. split; [exact Hr | exact Hout].
Defined.

(** C7.  Every call of [get_by_graph_id], whatever comes of it, makes
    exactly one HTTP call: a streaming GET, on the client stored in the
    session at login and with that client's cookies, to
    [{BASE_URL}/chart2.php?graphid={graph_id}&from={from_date}&to={to_date}&profileIdx=web.graphs.filter&width={width}&height={height}]. *)
Theorem single_chart_request (self : GraphImage)
    (graph_id from_date to_date width height : string)
    (save : bool) (output_path : option string) (w : World) :
  requests_of
    (trace (get_by_graph_id self graph_id from_date to_date width height
              save output_path w).2)
  = requests_of (trace w) ++
    [Request (SESSION self) GET
       (BASE_URL self +:+ "/chart2.php?graphid=" +:+ graph_id
          +:+ "&from=" +:+ from_date +:+ "&to=" +:+ to_date
          +:+ "&profileIdx=web.graphs.filter&width=" +:+ width
          +:+ "&height=" +:+ height)
       [] true (default [] (jars w !! SESSION self))].
Proof. apply chart_requests. Qed.

(** X10.  A chart request made with the session a login returned goes
    out on the client of that login and carries the cookies the login
    response set; the two are the only HTTP calls made. *)
Lemma chart_request_after_login
    (base_url username password : option string) (w : World) (rs : response)
    (graph_id from_date to_date width height : string)
    (save : bool) (output_path : option string) :
  net w (login_request base_url username password w) = inr rs ->
  exists self w1,
    __init__ base_url username password w = (Return self, w1) /\
    requests_of
      (trace (get_by_graph_id self graph_id from_date to_date width height
                save output_path w1).2)
    = requests_of (trace w) ++
      [login_request base_url username password w;
       Request (SESSION self) GET
         (chart_url self graph_id from_date to_date width height)
         [] true (rs_set_cookies rs)].
Proof.
  intros Hnet. rewrite init_run. cbn zeta. rewrite Hnet.
  eexists _, _. split; [reflexivity|].
  rewrite chart_requests. unfold chart_request. cbn.
  rewrite list_lookup_middle by done. cbn.
  by rewrite requests_of_snoc_request, <- app_assoc.
Qed.

(** C8.  [get_by_itemids] raises [NotImplementedError("Not yet added")]
    for every input and leaves the world as it was. *)
Theorem get_by_itemids_not_implemented (self : GraphImage)
    (item_ids : list string) (type : pyval)
    (from_date to_date width height : string)
    (save : bool) (output_path : option string) (w : World) :
  get_by_itemids self item_ids type from_date to_date width height
    save output_path w
  = (Raise (NotImplementedError "Not yet added"), w).
Proof. reflexivity. Qed.

(** C9.  [_validate_times] returns for every pair of dates and changes
    nothing; [get_by_graph_id] calls the validator bound to the object,
    with [from_date] and [to_date], before anything else: when it raises,
    the method raises the same and goes no further, and when it returns,
    the method goes on, from the world the validator left, as the method
    with the no-op validator does. *)
Theorem validate_times_noop_and_first :
  (forall self from_date to_date w,
     _validate_times self from_date to_date w = (Return tt, w)) /\
  (forall validate self graph_id from_date to_date width height save output_path
          w e w',
     validate self from_date to_date w = (Raise e, w') ->
     get_by_graph_id_with validate self graph_id from_date to_date width height
       save output_path w = (Raise e, w')) /\
  (forall validate self graph_id from_date to_date width height save output_path
          w w',
     validate self from_date to_date w = (Return tt, w') ->
     get_by_graph_id_with validate self graph_id from_date to_date width height
       save output_path w
     = get_by_graph_id self graph_id from_date to_date width height
         save output_path w').
Proof.
  split; [reflexivity|]. split.
  - intros * Hv. unfold get_by_graph_id_with. unfold bind at 1. by rewrite Hv.
  - intros * Hv. unfold get_by_graph_id, get_by_graph_id_with.
    unfold bind at 1 3. by rewrite Hv.
Qed.

Lemma validate_times_noop_and_first_witness :
  get_by_graph_id_with strict_validate_times sample_session "42" "" "now"
    default_width default_height false None (logged_in_world false)
  = (Raise (RequestException "empty from_date"), logged_in_world false)
  /\
  get_by_graph_id_with strict_validate_times sample_session "42" "now-1d" "now"
    default_width default_height false None (logged_in_world false)
  = get_by_graph_id sample_session "42" "now-1d" "now"
      default_width default_height false None
      (set_trace (trace (logged_in_world false) ++ [EvWrite Stdout []])
         (set_stdout (stdout (logged_in_world false) ++ [])
            (logged_in_world false))).
Proof.
  split.
  - apply (proj1 (proj2 validate_times_noop_and_first)). reflexivity.
  - apply (proj2 (proj2 validate_times_noop_and_first)). reflexivity.
Defined.

(** C10.  An explicit empty string is taken as no argument at all.
    Constructed with [""] for [base_url], [username] or [password], the
    session logs in with the value of [ZABBIX_SERVER], [ZABBIX_USER] or
    [ZABBIX_PASSWORD] when that is set and not empty, and with the
    default otherwise, never with the empty string; the run is the run
    with [None] there.  [get_by_graph_id] with [output_path=""] does what
    it does with [output_path=None]: when the request is answered and the
    file can be opened, the bytes go to [graph-{graph_id}.png] under the
    working directory. *)
Theorem empty_string_as_absent
    (base_url username password : option string) (self : GraphImage)
    (graph_id from_date to_date width height : string) (save : bool)
    (w : World) (image : response) (cs : list bytes) (failure : option exn) :
  (exists url rq,
     falls_through (environ w !! "ZABBIX_SERVER") "http://localhost/zabbix" url /\
     url <> "" /\
     trace (__init__ (Some "") username password w).2 = trace w ++ [EvRequest rq] /\
     rq_url rq = init_BASE_URL url +:+ "/index.php") /\
  (exists name rq,
     falls_through (environ w !! "ZABBIX_USER") "Admin" name /\
     name <> "" /\
     trace (__init__ base_url (Some "") password w).2 = trace w ++ [EvRequest rq] /\
     rq_data rq !! 0 = Some ("name", name)) /\
  (exists pw rq,
     falls_through (environ w !! "ZABBIX_PASSWORD") "zabbix" pw /\
     pw <> "" /\
     trace (__init__ base_url username (Some "") w).2 = trace w ++ [EvRequest rq] /\
     rq_data rq !! 1 = Some ("password", pw)) /\
  __init__ (Some "") username password w = __init__ None username password w /\
  __init__ base_url (Some "") password w = __init__ base_url None password w /\
  __init__ base_url username (Some "") w = __init__ base_url username None w /\
  get_by_graph_id self graph_id from_date to_date width height save (Some "") w
  = get_by_graph_id self graph_id from_date to_date width height save None w /\
  (net w (chart_request self graph_id from_date to_date width height w)
     = inr image ->
   rs_iter_content image 8192%N = (cs, failure) ->
   can_open w (cwd w +:+ "/graph-" +:+ graph_id +:+ ".png") = true ->
   let run := get_by_graph_id self graph_id from_date to_date width height
                true (Some "") w in
   fs run.2 !! (cwd w +:+ "/graph-" +:+ graph_id +:+ ".png") = Some (concat cs) /\
   exists rest,
     trace run.2 =
       trace w ++
       EvRequest (chart_request self graph_id from_date to_date width height w)
       :: EvOpen (cwd w +:+ "/graph-" +:+ graph_id +:+ ".png") :: rest).
Proof.
  assert (forall env dflt, dflt <> "" ->
            falls_through env dflt (Py.or_str (Py.or_ (Some "") env) dflt) /\
            Py.or_str (Py.or_ (Some "") env) dflt <> "") as Hfall.
  { intros [[|c e]|] dflt Hd; cbn; by split. }
  assert (forall b u p,
            trace (__init__ b u p w).2
            = trace w ++ [EvRequest (login_request b u p w)]) as Htrace.
  { intros b u p. rewrite init_run. cbn. by destruct (net w _). }
  split; [|split; [|split]].
  - exists (init_url (Some "") (environ w)), (login_request (Some "") username password w).
    destruct (Hfall (environ w !! "ZABBIX_SERVER") "http://localhost/zabbix")
      as [Hf Hne]; [done|].
    by repeat split.
  - eexists _, (login_request base_url (Some "") password w).
    destruct (Hfall (environ w !! "ZABBIX_USER") "Admin") as [Hf Hne]; [done|].
    split; [exact Hf|]. by repeat split.
  - eexists _, (login_request base_url username (Some "") w).
    destruct (Hfall (environ w !! "ZABBIX_PASSWORD") "zabbix") as [Hf Hne]; [done|].
    split; [exact Hf|]. by repeat split.
  - do 4 (split; [reflexivity|]).
    intros Hnet Hbody Hopen run. subst run.
    rewrite (chart_run_save self graph_id from_date to_date width height
               (Some "") w image cs failure Hnet Hbody Hopen).
    cbn [fs trace snd]. split; [apply lookup_insert_eq|].
    eexists. reflexivity.
Qed.

Lemma empty_string_as_absent_witness :
  (exists rq,
     trace (__init__ None (Some "") None (sample_world false)).2 = [EvRequest rq] /\
     rq_data rq !! 0 = Some ("name", "monitor")) /\
  fs (get_by_graph_id sample_session "42" default_from_date default_to_date
        default_width default_height true (Some "") (logged_in_world false)).2
    !! "/home/zbx/graph-42.png"
  = Some [x89; x50; x4e; x47; x0d; x0a; x1a; x0a; x00].
Proof.
  destruct (empty_string_as_absent None None None sample_session "42"
              default_from_date default_to_date default_width default_height
              true (sample_world false)
              (Response 200 [] (fun _ => (png_chunks, None))) png_chunks None)
    as (_ & (name & rq & Hname & _ & Htr & Hdata) & _).
  destruct (empty_string_as_absent None None None sample_session "42"
              default_from_date default_to_date default_width default_height
              true (logged_in_world false)
              (Response 200 [] (fun _ => (png_chunks, None))) png_chunks None)
    as (_ & _ & _ & _ & _ & _ & _ & Hsave).
  split.
  - exists rq. split; [exact Htr|]. rewrite Hdata. f_equal. f_equal. exact Hname.
  - exact (proj1 (Hsave eq_refl eq_refl eq_refl)).
Defined.

(** ** The scenario of the specification, run *)

Example end_to_end :
  let login := __init__ (Some "https://zbx.example.com/zabbix") (Some "Admin")
                 (Some "secret") (sample_world false) in
  let run := get_by_graph_id sample_session "42" default_from_date default_to_date
               default_width default_height true (Some "/tmp/out") login.2 in
  login.1 = Return sample_session /\
  run.1 = Return tt /\
  map (fun r => (rq_method r, rq_url r)) (requests_of (trace run.2))
  = [(POST, "https://zbx.example.com/zabbix/index.php");
     (GET, "https://zbx.example.com/zabbix/chart2.php?graphid=42&from=now-1d&to=now&profileIdx=web.graphs.filter&width=1782&height=452")] /\
  fs run.2 !! "/tmp/out/graph-42.png"
  = Some [x89; x50; x4e; x47; x0d; x0a; x1a; x0a; x00].
Proof. vm_compute. repeat split. Qed.

(** ** Beyond the happy paths *)

(** The file cannot be opened: nothing is read from the stream. *)
Lemma chart_run_open_refused (self : GraphImage)
    (graph_id from_date to_date width height : string)
    (output_path : option string) (w : World) (image : response) :
  let rq := chart_request self graph_id from_date to_date width height w in
  let path := graph_file (Py.or_str output_path (cwd w)) graph_id in
  net w rq = inr image ->
  can_open w path = false ->
  get_by_graph_id self graph_id from_date to_date width height true output_path w
  = (Raise (OSError path),
     mkWorld (environ w) (cwd w) (net w) (can_open w)
       (alter (fun j => rs_set_cookies image ++ j) (SESSION self) (jars w))
       (fs w) (open_handles w) (stdout w)
       (trace w ++ [EvRequest rq;
                    EvClose (HResponse (chart_url self graph_id from_date
                                          to_date width height))])).
Proof.
  intros rq path Hnet Hopen.
  unfold get_by_graph_id, get_by_graph_id_with, _validate_times.
  rewrite bind_ret. unfold bind at 1. unfold Session_get, Session_request.
  unfold rq, chart_request in Hnet |- *. rewrite Hnet.
  destruct w as [env here nt co js files hs out tr]; cbn in *.
  unfold finally at 1. unfold bind at 1. unfold os_getcwd. cbn.
  fold path. unfold with_open_wb. unfold bind at 1. unfold open_wb at 1.
  cbn. rewrite Hopen.
  cbv beta iota zeta delta [close set_trace set_open_handles set_fs set_stdout set_jars
    environ cwd net can_open jars fs open_handles stdout trace].
  by rewrite remove_first_head, <- app_assoc.
Qed.

(** X1.  When the transport fails on the login, the constructor raises
    that exception: no session object comes back, the one POST was
    attempted on a fresh client, and files, standard output and handles
    are as before. *)
Theorem init_transport_failure
    (base_url username password : option string) (w : World) (e : exn) :
  net w (login_request base_url username password w) = inl e ->
  let run := __init__ base_url username password w in
  run.1 = Raise e /\
  trace run.2 = trace w ++ [EvRequest (login_request base_url username password w)] /\
  jars run.2 = jars w ++ [[]] /\
  same_files_and_output w run.2.
Proof.
  intros Hnet run. subst run. rewrite init_run. cbn zeta. rewrite Hnet.
  by repeat split.
Qed.

Lemma init_transport_failure_witness :
  (__init__ None None None offline_world).1
  = Raise (RequestException "connection refused").
Proof.
  exact (proj1 (init_transport_failure None None None offline_world
                  (RequestException "connection refused") eq_refl)).
Defined.

(** X2.  When the transport fails on the chart request, [get_by_graph_id]
    raises that exception having done nothing but the attempt: no file is
    created or truncated, nothing goes to standard output, no handle
    stays open, in either mode. *)
Theorem chart_transport_failure (self : GraphImage)
    (graph_id from_date to_date width height : string)
    (save : bool) (output_path : option string) (w : World) (e : exn) :
  net w (chart_request self graph_id from_date to_date width height w) = inl e ->
  let run := get_by_graph_id self graph_id from_date to_date width height
               save output_path w in
  run.1 = Raise e /\
  trace run.2 = trace w ++
    [EvRequest (chart_request self graph_id from_date to_date width height w)] /\
  jars run.2 = jars w /\
  same_files_and_output w run.2.
Proof.
  intros Hnet run. subst run.
  rewrite (chart_run_transport_failure _ _ _ _ _ _ _ _ _ _ Hnet).
  by repeat split.
Qed.

Lemma chart_transport_failure_witness :
  let run := get_by_graph_id sample_session "42" default_from_date default_to_date
               default_width default_height true None offline_world in
  run.1 = Raise (RequestException "connection refused") /\
  fs run.2 = fs offline_world.
Proof.
  destruct (chart_transport_failure sample_session "42" default_from_date
              default_to_date default_width default_height true None
              offline_world (RequestException "connection refused") eq_refl)
    as (Hr & _ & _ & Hfs & _).
  split; [exact Hr | exact Hfs].
Defined.

(** X3.  With [save=True], when the file cannot be opened the method
    raises the error of [open] after the request was answered: the
    response is closed again, no chunk is taken from the stream, no file
    content changes and nothing goes to standard output. *)
Theorem save_open_refused (self : GraphImage)
    (graph_id from_date to_date width height : string)
    (output_path : option string) (w : World) (image : response) :
  let rq := chart_request self graph_id from_date to_date width height w in
  let path := graph_file (Py.or_str output_path (cwd w)) graph_id in
  let run := get_by_graph_id self graph_id from_date to_date width height
               true output_path w in
  net w rq = inr image ->
  can_open w path = false ->
  run.1 = Raise (OSError path) /\
  trace run.2 = trace w ++
    [EvRequest rq;
     EvClose (HResponse (chart_url self graph_id from_date to_date width height))] /\
  same_files_and_output w run.2.
Proof.
  intros rq path run Hnet Hopen. subst run.
  rewrite (chart_run_open_refused _ _ _ _ _ _ _ _ _ Hnet Hopen).
  by repeat split.
Qed.

Lemma save_open_refused_witness :
  let run := get_by_graph_id sample_session "42" default_from_date default_to_date
               default_width default_height true None readonly_world in
  run.1 = Raise (OSError "/home/zbx/graph-42.png") /\
  open_handles run.2 = [].
Proof.
  destruct (save_open_refused sample_session "42" default_from_date
              default_to_date default_width default_height None readonly_world
              (Response 200 [] (fun _ => (png_chunks, None))) eq_refl eq_refl)
    as (Hr & _ & _ & _ & Hh).
  split; [exact Hr | exact Hh].
Defined.

(** X4.  [get_by_graph_id] never leaves a file or a response open:
    whatever the transport, the file system and the stream do, the open
    handles after the call are those before it. *)
Theorem no_handle_left_open (self : GraphImage)
    (graph_id from_date to_date width height : string)
    (save : bool) (output_path : option string) (w : World) :
  open_handles
    (get_by_graph_id self graph_id from_date to_date width height
       save output_path w).2
  = open_handles w.
Proof.
  destruct (net w (chart_request self graph_id from_date to_date width height w))
    as [e|image] eqn:Hnet.
  { by rewrite (chart_run_transport_failure _ _ _ _ _ _ _ _ _ _ Hnet). }
  destruct (rs_iter_content image 8192%N) as [cs failure] eqn:Hbody.
  destruct save.
  - destruct (can_open w (graph_file (Py.or_str output_path (cwd w)) graph_id))
      eqn:Hopen.
    + by rewrite (chart_run_save _ _ _ _ _ _ _ _ _ _ _ Hnet Hbody Hopen).
    + by rewrite (chart_run_open_refused _ _ _ _ _ _ _ _ _ Hnet Hopen).
  - by rewrite (chart_run_stdout _ _ _ _ _ _ _ _ _ _ _ Hnet Hbody).
Qed.

(** X5.  The two sinks are kept apart on every path: with [save=False]
    no file content changes, and with [save=True] nothing is written to
    standard output. *)
Theorem sinks_kept_apart (self : GraphImage)
    (graph_id from_date to_date width height : string)
    (output_path : option string) (w : World) :
  fs (get_by_graph_id self graph_id from_date to_date width height
        false output_path w).2 = fs w /\
  stdout (get_by_graph_id self graph_id from_date to_date width height
            true output_path w).2 = stdout w.
Proof.
  destruct (net w (chart_request self graph_id from_date to_date width height w))
    as [e|image] eqn:Hnet.
  { by rewrite !(chart_run_transport_failure _ _ _ _ _ _ _ _ _ _ Hnet). }
  destruct (rs_iter_content image 8192%N) as [cs failure] eqn:Hbody.
  split.
  - by rewrite (chart_run_stdout _ _ _ _ _ _ _ _ _ _ _ Hnet Hbody).
  - destruct (can_open w (graph_file (Py.or_str output_path (cwd w)) graph_id))
      eqn:Hopen.
    + by rewrite (chart_run_save _ _ _ _ _ _ _ _ _ _ _ Hnet Hbody Hopen).
    + by rewrite (chart_run_open_refused _ _ _ _ _ _ _ _ _ Hnet Hopen).
Qed.

Lemma all_empty_chunks (cs : list bytes) :
  Forall (fun c => c = []) cs ->
  concat cs = [] /\ List.filter nonempty cs = [].
Proof.
  induction 1 as [|c cs -> _ [IHc IHf]]; [done|]. cbn. by rewrite IHc, IHf.
Qed.

(** X6.  Saving the same graph twice into the same directory overwrites:
    after the second call the file holds the bytes of the second stream
    only, whatever the first one wrote. *)
Theorem second_save_overwrites (self : GraphImage)
    (graph_id from_date to_date width height : string)
    (output_path : option string) (w : World)
    (image1 image2 : response) (cs1 cs2 : list bytes)
    (failure1 failure2 : option exn) :
  let path := graph_file (Py.or_str output_path (cwd w)) graph_id in
  let w1 := (get_by_graph_id self graph_id from_date to_date width height
               true output_path w).2 in
  let w2 := (get_by_graph_id self graph_id from_date to_date width height
               true output_path w1).2 in
  net w (chart_request self graph_id from_date to_date width height w)
    = inr image1 ->
  rs_iter_content image1 8192%N = (cs1, failure1) ->
  can_open w path = true ->
  net w (chart_request self graph_id from_date to_date width height w1)
    = inr image2 ->
  rs_iter_content image2 8192%N = (cs2, failure2) ->
  fs w1 !! path = Some (concat cs1) /\
  fs w2 !! path = Some (concat cs2) /\
  fs w2 = <[path := concat cs2]> (fs w).
Proof.
  intros path w1 w2 Hnet1 Hbody1 Hopen Hnet2 Hbody2.
  pose proof (chart_run_save self graph_id from_date to_date width height
                output_path w image1 cs1 failure1 Hnet1 Hbody1 Hopen) as Hrun1.
  assert (net w1 = net w /\ cwd w1 = cwd w /\ can_open w1 = can_open w /\
          fs w1 = <[path := concat cs1]> (fs w)) as (Hn & Hc & Ho & Hfs1).
  { unfold w1. by rewrite Hrun1. }
  assert (fs w2 = <[path := concat cs2]> (fs w1)) as Hfs2.
  { unfold w2, path. rewrite <- Hc.
    rewrite (chart_run_save self graph_id from_date to_date width height
               output_path w1 image2 cs2 failure2); [done| |done|].
    - by rewrite Hn.
    - by rewrite Ho, Hc. }
  rewrite Hfs2, Hfs1, insert_insert_eq.
  repeat split; apply lookup_insert_eq.
Qed.

Lemma second_save_overwrites_witness :
  let w1 := (get_by_graph_id sample_session "42" default_from_date default_to_date
               default_width default_height true None changing_world).2 in
  let w2 := (get_by_graph_id sample_session "42" default_from_date default_to_date
               default_width default_height true None w1).2 in
  fs w1 !! "/home/zbx/graph-42.png" = Some [x01; x02; x03; x04] /\
  fs w2 !! "/home/zbx/graph-42.png" = Some [x0a; x0b].
Proof.
  destruct (second_save_overwrites sample_session "42" default_from_date
              default_to_date default_width default_height None changing_world
              (Response 200 [("seen", "1")]
                 (fun _ => ([[x01; x02; x03]; [x04]], None)))
              (Response 200 [] (fun _ => ([[x0a]; []; [x0b]], None)))
              [[x01; x02; x03]; [x04]] [[x0a]; []; [x0b]] None None
              eq_refl eq_refl eq_refl eq_refl eq_refl)
    as (H1 & H2 & _).
  split; [exact H1 | exact H2].
Defined.

(** X7.  With [save=True], a response made of keep-alive chunks only (or
    of no chunk at all) still creates or truncates the file: it ends up
    empty, and no write call is made. *)
Theorem keepalive_only_leaves_empty_file (self : GraphImage)
    (graph_id from_date to_date width height : string)
    (output_path : option string) (w : World)
    (image : response) (cs : list bytes) (failure : option exn) :
  let rq := chart_request self graph_id from_date to_date width height w in
  let path := graph_file (Py.or_str output_path (cwd w)) graph_id in
  let run := get_by_graph_id self graph_id from_date to_date width height
               true output_path w in
  net w rq = inr image ->
  rs_iter_content image 8192%N = (cs, failure) ->
  can_open w path = true ->
  Forall (fun c => c = []) cs ->
  fs run.2 !! path = Some [] /\
  trace run.2 =
    trace w ++
    [EvRequest rq; EvOpen path; EvClose (HFile path);
     EvClose (HResponse (chart_url self graph_id from_date to_date width height))].
Proof.
  intros rq path run Hnet Hbody Hopen Hall. subst run.
  destruct (all_empty_chunks cs Hall) as [Hc Hf].
  rewrite (chart_run_save _ _ _ _ _ _ _ _ _ _ _ Hnet Hbody Hopen).
  cbn [fs trace snd]. rewrite Hc, Hf. split; [apply lookup_insert_eq | done].
Qed.

Lemma keepalive_only_leaves_empty_file_witness :
  fs (get_by_graph_id sample_session "42" default_from_date default_to_date
        default_width default_height true None idle_world).2
    !! "/home/zbx/graph-42.png" = Some [].
Proof.
  refine (proj1 (keepalive_only_leaves_empty_file sample_session "42"
                   default_from_date default_to_date default_width
                   default_height None idle_world
                   (Response 200 [] (fun _ => ([[]; []; []], None)))
                   [[]; []; []] None eq_refl eq_refl eq_refl _)).
  repeat constructor.
Defined.

(** X8.  The stored base URL is never longer than the resolved one, and
    it is the resolved one exactly when that ends with
    [/api_jsonrpc.php] or does not contain it at all. *)
Theorem base_url_unchanged_iff (url : string) :
  String.length (init_BASE_URL url) <= String.length url /\
  (init_BASE_URL url = url <->
   ends_with url api_suffix \/ ~ occurs api_suffix url).
Proof.
  unfold init_BASE_URL.
  destruct (Py.endswith url api_suffix) eqn:He; cbn [negb].
  - split; [lia|]. split; [|done]. intros _. left. by apply endswith_spec.
  - split; [apply replace_scan_length_le|]. split.
    + intros Heq. right. intros Hocc.
      pose proof (replace_scan_shrinks api_suffix url ltac:(done) Hocc) as Hlt.
      unfold Py.replace, api_suffix in Heq. unfold api_suffix in Hlt.
      rewrite Heq in Hlt. lia.
    + intros [Hends|Hno].
      * apply endswith_spec in Hends. congruence.
      * by apply replace_absent.
Qed.

Lemma base_url_unchanged_iff_witness :
  init_BASE_URL "http://localhost/zabbix" = "http://localhost/zabbix".
Proof.
  apply (proj2 (base_url_unchanged_iff "http://localhost/zabbix")).
  right. apply not_occurs_by_search. reflexivity.
Defined.

(** X9.  Every construction works on a client of its own: the login is
    sent without cookies whatever earlier sessions hold, the new session
    gets a client no earlier session has, and the cookie jars of the
    earlier sessions are left as they were. *)
Theorem fresh_client_per_session
    (base_url username password : option string) (w : World) (rs : response) :
  net w (login_request base_url username password w) = inr rs ->
  exists self w',
    __init__ base_url username password w = (Return self, w') /\
    rq_cookies (login_request base_url username password w) = [] /\
    jars w !! SESSION self = None /\
    jars w' !! SESSION self = Some (rs_set_cookies rs) /\
    forall c j, jars w !! c = Some j -> jars w' !! c = Some j.
Proof.
  intros Hnet. rewrite init_run. cbn zeta. rewrite Hnet.
  eexists _, _. split; [reflexivity|]. cbn.
  repeat split.
  - by apply lookup_ge_None_2.
  - by apply list_lookup_middle.
  - intros c j Hc. by apply lookup_app_l_Some.
Qed.

Lemma fresh_client_per_session_witness :
  exists self w',
    __init__ None None None (logged_in_world false) = (Return self, w') /\
    jars w' !! 0 = Some [("zbx_session", "abc")].
Proof.
  destruct (fresh_client_per_session None None None (logged_in_world false)
              (Response 403 [("zbx_session", "abc")] (fun _ => ([], None)))
              eq_refl)
    as (self & w' & Hrun & _ & _ & _ & Hold).
  exists self, w'. split; [exact Hrun|]. apply Hold. reflexivity.
Defined.

Lemma chart_request_after_login_witness :
  exists self w1,
    __init__ (Some "https://zbx.example.com/zabbix") (Some "Admin") (Some "secret")
      (sample_world false) = (Return self, w1) /\
    length
      (requests_of
         (trace (get_by_graph_id self "42" default_from_date default_to_date
                   default_width default_height false None w1).2)) = 2.
Proof.
  destruct (chart_request_after_login
              (Some "https://zbx.example.com/zabbix") (Some "Admin") (Some "secret")
              (sample_world false)
              (Response 403 [("zbx_session", "abc")] (fun _ => ([], None)))
              "42" default_from_date default_to_date default_width default_height
              false None eq_refl)
    as (self & w1 & Hrun & Hreq).
  exists self, w1. split; [exact Hrun|]. by rewrite Hreq.
Defined.
